(** * Connection profiles: creation protocol and validation

    A shallow embedding of [src/models/connectionProfile.ts]: the class
    [ConnectionProfile] with its validator [isValidProfile], the predicate
    [isAzureActiveDirectory] and the asynchronous static method
    [createProfile], which builds a question list, hands it to a prompter
    and, depending on the draft, starts an Azure Active Directory login. *)

From Stdlib Require Import String List Bool.
Import ListNotations.
Local Open Scope string_scope.
Local Open Scope bool_scope.
Local Open Scope list_scope.

(** ** JavaScript values *)

Module Js.

(** The values a prompt hands to an [onAnswered] callback (declared [any]):
    nothing, the boolean of a confirmation, the text of an input. *)
Inductive value : Type :=
| VUndefined
| VBool (b : bool)
| VString (s : string).

(** [ToBoolean]: what [v ? a : b] and [!v] test. *)
Definition truthy (v : value) : bool :=
  match v with
  | VUndefined => false
  | VBool b => b
  | VString s => negb (s =? "")
  end.

(** A field declared [string] holds a string, or [undefined] while it has
    not been assigned: [None] is [undefined]. *)
Definition str := option string.

(** [ToBoolean] on such a field: [undefined] and [''] are falsy. *)
Definition truthyStr (s : str) : bool :=
  match s with
  | Some s => negb (s =? "")
  | None => false
  end.

(** [field === 'literal']. *)
Definition strictEq (s : str) (lit : string) : bool :=
  match s with
  | Some s => s =? lit
  | None => false
  end.

(** How a call ends: it returns (an awaited promise resolves), or it throws
    (an awaited promise rejects). *)
Inductive completion (A : Type) : Type :=
| Returns (a : A)
| Throws (err : string).
Arguments Returns {A} a.
Arguments Throws {A} err.

End Js.
Import Js.

(** ** Data model *)

(** Modelled from the spec: the enum [AuthenticationTypes] is declared in
    [./interfaces], which is not among the sources.  The source names its
    members [Integrated] and [ActiveDirectoryUniversal]; the spec adds the
    password-based [SqlLogin]. *)
Inductive AuthenticationTypes : Type :=
| Integrated
| SqlLogin
| ActiveDirectoryUniversal.

(** [AuthenticationTypes[AuthenticationTypes.X]]: the reverse mapping of a
    TypeScript enum gives the member's name. *)
Definition AuthenticationTypes_name (t : AuthenticationTypes) : string :=
  match t with
  | Integrated => "Integrated"
  | SqlLogin => "SqlLogin"
  | ActiveDirectoryUniversal => "ActiveDirectoryUniversal"
  end.

(** The draft: the fields of [ConnectionCredentials] that this file reads,
    and the three fields [ConnectionProfile] adds.  The latter are assigned
    from callback arguments, so they hold a [value]. *)
Record ConnectionProfile : Type := mkProfile {
  server : str;
  user : str;
  authenticationType : str;
  connectionString : str;
  profileName : value;
  savePassword : value;
  emptyPasswordInput : value
}.

(** [new ConnectionProfile()]: no field assigned. *)
Definition newConnectionProfile : ConnectionProfile :=
  mkProfile None None None None VUndefined VUndefined VUndefined.

Definition set_authenticationType (a : str) (p : ConnectionProfile) :=
  mkProfile (server p) (user p) a (connectionString p)
            (profileName p) (savePassword p) (emptyPasswordInput p).

Definition set_profileName (v : value) (p : ConnectionProfile) :=
  mkProfile (server p) (user p) (authenticationType p) (connectionString p)
            v (savePassword p) (emptyPasswordInput p).

Definition set_savePassword (v : value) (p : ConnectionProfile) :=
  mkProfile (server p) (user p) (authenticationType p) (connectionString p)
            (profileName p) v (emptyPasswordInput p).

(** ** Validation *)

(** Modelled from the spec: [utils.isNotEmpty] is defined in [./utils], which
    is not among the sources; the spec reads it as "non-empty": the field is
    present and is not the empty string. *)
Definition isNotEmpty (s : str) : bool :=
  match s with
  | Some s => negb (s =? "")
  | None => false
  end.

(** [private isValidProfile(): boolean] *)
Definition isValidProfile (this : ConnectionProfile) : bool :=
  if truthyStr (connectionString this) then true
  else if truthyStr (authenticationType this) then
    if strictEq (authenticationType this) (AuthenticationTypes_name Integrated)
       || strictEq (authenticationType this)
                   (AuthenticationTypes_name ActiveDirectoryUniversal)
    then isNotEmpty (server this)
    else isNotEmpty (server this) && isNotEmpty (user this)
  else false.

(** [private isAzureActiveDirectory(): boolean] *)
Definition isAzureActiveDirectory (this : ConnectionProfile) : bool :=
  strictEq (authenticationType this)
           (AuthenticationTypes_name ActiveDirectoryUniversal).

(** The validity rule in the words of the specification. *)
Module Rule.

(** A string field carries something: it is assigned and not empty. *)
Definition nonEmpty (s : str) : Prop :=
  exists t, s = Some t /\ t <> "".

(** The authentication type is unset: nothing usable was stored. *)
Definition unset (s : str) : Prop := s = None \/ s = Some "".

(** The "no explicit user" modes. *)
Definition noExplicitUser (s : str) : Prop :=
  s = Some "Integrated" \/ s = Some "ActiveDirectoryUniversal".

(** The invariant of the data model: (a) a non-empty connection string, or
    (b) an authentication type and a non-empty server and, unless the mode
    needs no explicit user, a non-empty user. *)
Definition valid (d : ConnectionProfile) : Prop :=
  nonEmpty (connectionString d)
  \/ (~ unset (authenticationType d)
      /\ nonEmpty (server d)
      /\ (~ noExplicitUser (authenticationType d) -> nonEmpty (user d))).

End Rule.

(** ** Questions *)

(** Modelled from the spec: [QuestionTypes] is declared in
    [../prompts/question], which is not among the sources.  The source uses
    [confirm] (the spec's yes/no question) and [input] (its free-text
    question); the kinds of the credential questions go by their tag. *)
Module QuestionTypes.
Inductive t : Type :=
| input
| confirm
| other (tag : string).
End QuestionTypes.

(** The answer set a prompter resolves to: answers by question name, in the
    order they were given. *)
Definition Answers : Type := list (string * value).

(** [IQuestion].  The callbacks of the source are closures over the one
    draft object [profile]; here they take the current content of that
    object, and [onAnswered] gives back its content after the assignment. *)
Record IQuestion : Type := mkQuestion {
  type : QuestionTypes.t;
  name : string;
  message : string;
  placeHolder : option string;
  default : value;
  shouldPrompt : option (Answers -> ConnectionProfile -> bool);
  onAnswered : option (value -> ConnectionProfile -> ConnectionProfile)
}.

(** [INameValueChoice] *)
Record INameValueChoice : Type := mkChoice {
  choice_name : string;
  choice_value : string
}.

(** The strings of [LocalizedConstants] that the two questions use. *)
Record LocalizedConstants : Type := mkConstants {
  msgSavePassword : string;
  profileNamePrompt : string;
  profileNamePlaceholder : string
}.

(** What [azureCodeGrant.startLogin()] hands back and the source logs
    without awaiting it: a login that, later, succeeds, fails, or never
    finishes. *)
Inductive LoginHandle : Type :=
| LoginSucceeds
| LoginFails
| LoginPending.

(** The authentication exchange: [azureController.init()], which is awaited,
    and [azureCodeGrant.startLogin()], whose result is only logged. *)
Record AzureExchange : Type := mkExchange {
  init : completion unit;
  startLogin : completion LoginHandle
}.

(** ** Effects *)

(** What [createProfile] does to its collaborators, in order. *)
Inductive Event : Type :=
| EvCredentialQuestions (draft : ConnectionProfile)
| EvPrompt (questions : list IQuestion) (ignoreFocusOut : bool)
           (draft : ConnectionProfile)
| EvControllerInit
| EvStartLogin
| EvConsoleLog (test : LoginHandle)
| EvIsValidProfile (draft : ConnectionProfile).

(** The store: the one draft object, and the calls made so far. *)
Record Heap : Type := mkHeap {
  profile : ConnectionProfile;
  trace : list Event
}.

(** A computation of the [async] function: it runs on the store and returns
    or throws; the store survives a throw. *)
Definition M (A : Type) : Type := Heap -> completion A * Heap.

Definition ret {A} (a : A) : M A := fun h => (Returns a, h).

Definition bind {A B} (m : M A) (k : A -> M B) : M B :=
  fun h =>
    match m h with
    | (Returns a, h') => k a h'
    | (Throws e, h') => (Throws e, h')
    end.

Declare Scope profile_scope.
Delimit Scope profile_scope with profile.
Notation "x <- m ;; k" := (bind m (fun x => k))
  (at level 61, m at next level, right associativity) : profile_scope.
Notation "m ;; k" := (bind m (fun _ => k))
  (at level 61, right associativity) : profile_scope.
Local Open Scope profile_scope.

(** [await c], or a call that may throw. *)
Definition await {A} (c : completion A) : M A := fun h => (c, h).

Definition emit (e : Event) : M unit :=
  fun h => (Returns tt, mkHeap (profile h) (trace h ++ [e])).

Definition readProfile : M ConnectionProfile :=
  fun h => (Returns (profile h), h).

Definition writeProfile (p : ConnectionProfile) : M unit :=
  fun h => (Returns tt, mkHeap p (trace h)).

(** Which events belong to the authentication exchange. *)
Definition isExchangeEvent (e : Event) : bool :=
  match e with
  | EvControllerInit | EvStartLogin | EvConsoleLog _ => true
  | _ => false
  end.

Definition isValidationEvent (e : Event) : bool :=
  match e with
  | EvIsValidProfile _ => true
  | _ => false
  end.

Definition exchangeInvoked (t : list Event) : bool := existsb isExchangeEvent t.
Definition validatorRun (t : list Event) : bool := existsb isValidationEvent t.

(** ** Profile creation *)

Section CreateProfile.

(** [ConnectionStore] is passed through to the credential layer. *)
Variable ConnectionStore : Type.

(** The static members of [ConnectionCredentials] that are called. *)
Record ConnectionCredentials : Type := mkCredentials {
  getAuthenticationTypesChoice : list INameValueChoice;
  getRequiredCredentialValuesQuestions :
    ConnectionProfile -> bool -> bool -> ConnectionStore ->
    option ConnectionProfile -> list IQuestion;
  isPasswordBasedCredential : ConnectionProfile -> bool
}.

(** [IPrompter]: [prompt(questions, ignoreFocusOut)] resolves to the
    answers, or to [undefined]; on the way it may call the questions'
    callbacks, which leaves the draft changed. *)
Record IPrompter : Type := mkPrompter {
  prompt : list IQuestion -> bool -> ConnectionProfile ->
           option Answers * ConnectionProfile
}.

Variable L : LocalizedConstants.
Variable Credentials : ConnectionCredentials.
Variable Azure : AzureExchange.

(** The first pushed question: whether to save the password. *)
Definition savePasswordQuestion : IQuestion :=
  {| type := QuestionTypes.confirm;
     name := msgSavePassword L;
     message := msgSavePassword L;
     placeHolder := None;
     default := VUndefined;
     shouldPrompt := Some (fun answers profile =>
       negb (truthyStr (connectionString profile))
       && isPasswordBasedCredential Credentials profile);
     onAnswered := Some (fun value profile => set_savePassword value profile)
  |}.

(** The second pushed question: the profile's name. *)
Definition profileNameQuestion
           (defaultProfileValues : option ConnectionProfile) : IQuestion :=
  {| type := QuestionTypes.input;
     name := profileNamePrompt L;
     message := profileNamePrompt L;
     placeHolder := Some (profileNamePlaceholder L);
     default := match defaultProfileValues with
                | Some d => profileName d
                | None => VUndefined
                end;
     shouldPrompt := None;
     onAnswered := Some (fun value profile =>
       set_profileName (if truthy value then value else VUndefined) profile)
  |}.

(** The body of the [if (profile.isAzureActiveDirectory())] block. *)
Definition authenticationExchange : M unit :=
  emit EvControllerInit ;;
  await (init Azure) ;;
  emit EvStartLogin ;;
  test <- await (startLogin Azure) ;;
  emit (EvConsoleLog test).

(** [prompter.prompt(questions, true)]: the callbacks work on the draft. *)
Definition callPrompt (prompter : IPrompter) (questions : list IQuestion)
           (ignoreFocusOut : bool) : M (option Answers) :=
  draft <- readProfile ;;
  emit (EvPrompt questions ignoreFocusOut draft) ;;
  let (answers, draft') := prompt prompter questions ignoreFocusOut draft in
  writeProfile draft' ;;
  ret answers.

(** [profile.isValidProfile()] *)
Definition callIsValidProfile : M bool :=
  draft <- readProfile ;;
  emit (EvIsValidProfile draft) ;;
  ret (isValidProfile draft).

(** [public static async createProfile(prompter, connectionStore,
    defaultProfileValues?)] *)
Definition createProfile (prompter : IPrompter)
           (connectionStore : ConnectionStore)
           (defaultProfileValues : option ConnectionProfile)
  : M (option ConnectionProfile) :=
  writeProfile newConnectionProfile ;;
  let authOptions := getAuthenticationTypesChoice Credentials in
  (match authOptions with
   | [only] =>
       draft <- readProfile ;;
       writeProfile (set_authenticationType (Some (choice_value only)) draft)
   | _ => ret tt
   end) ;;
  draft <- readProfile ;;
  emit (EvCredentialQuestions draft) ;;
  let questions :=
    getRequiredCredentialValuesQuestions Credentials draft true false
      connectionStore defaultProfileValues in
  let questions :=
    questions ++ [savePasswordQuestion;
                  profileNameQuestion defaultProfileValues] in
  answers <- callPrompt prompter questions true ;;
  draft <- readProfile ;;
  (if isAzureActiveDirectory draft then authenticationExchange else ret tt) ;;
  match answers with
  | Some _ =>
      ok <- callIsValidProfile ;;
      if ok then (draft <- readProfile ;; ret (Some draft)) else ret None
  | None => ret None
  end.

(** One call, from a store nothing has touched yet. *)
Definition run (prompter : IPrompter) (connectionStore : ConnectionStore)
           (defaultProfileValues : option ConnectionProfile)
  : completion (option ConnectionProfile) * Heap :=
  createProfile prompter connectionStore defaultProfileValues
                (mkHeap newConnectionProfile []).

(** The draft as it is when the credential layer and the prompter are
    called: only the pre-selection of lines 40-44 has happened. *)
Definition draftBeforePrompting : ConnectionProfile :=
  match getAuthenticationTypesChoice Credentials with
  | [only] =>
      set_authenticationType (Some (choice_value only)) newConnectionProfile
  | _ => newConnectionProfile
  end.

(** The list the source builds before it calls the prompter. *)
Definition builtQuestions (connectionStore : ConnectionStore)
           (defaultProfileValues : option ConnectionProfile)
  : list IQuestion :=
  getRequiredCredentialValuesQuestions Credentials draftBeforePrompting
    true false connectionStore defaultProfileValues
  ++ [savePasswordQuestion; profileNameQuestion defaultProfileValues].

End CreateProfile.

Arguments getAuthenticationTypesChoice {ConnectionStore} _.
Arguments getRequiredCredentialValuesQuestions {ConnectionStore} _ _ _ _ _ _.
Arguments isPasswordBasedCredential {ConnectionStore} _ _.
Arguments mkCredentials {ConnectionStore} _ _ _.
Arguments savePasswordQuestion {ConnectionStore} L Credentials.
Arguments createProfile {ConnectionStore} L Credentials Azure _ _ _ _.
Arguments run {ConnectionStore} L Credentials Azure _ _ _.
Arguments draftBeforePrompting {ConnectionStore} Credentials.
Arguments builtQuestions {ConnectionStore} L Credentials _ _.



(** ** Reading a run *)

(** What the prompter answers in a call of [createProfile], and the draft as
    its callbacks leave it. *)
Definition promptOutcome {ConnectionStore : Type} (L : LocalizedConstants)
           (Credentials : ConnectionCredentials ConnectionStore)
           (prompter : IPrompter) (connectionStore : ConnectionStore)
           (defaultProfileValues : option ConnectionProfile)
  : option Answers * ConnectionProfile :=
  prompt prompter
         (builtQuestions L Credentials connectionStore defaultProfileValues)
         true (draftBeforePrompting Credentials).

Definition answersOf {ConnectionStore : Type} (L : LocalizedConstants)
           (Credentials : ConnectionCredentials ConnectionStore)
           (prompter : IPrompter) (connectionStore : ConnectionStore)
           (defaultProfileValues : option ConnectionProfile)
  : option Answers :=
  fst (promptOutcome L Credentials prompter connectionStore
                     defaultProfileValues).

Definition draftAfterPrompt {ConnectionStore : Type} (L : LocalizedConstants)
           (Credentials : ConnectionCredentials ConnectionStore)
           (prompter : IPrompter) (connectionStore : ConnectionStore)
           (defaultProfileValues : option ConnectionProfile)
  : ConnectionProfile :=
  snd (promptOutcome L Credentials prompter connectionStore
                     defaultProfileValues).

(** What the promise of [createProfile] settles to, and the calls made. *)
Definition result {ConnectionStore : Type} (L : LocalizedConstants)
           (Credentials : ConnectionCredentials ConnectionStore)
           (Azure : AzureExchange)
           (prompter : IPrompter) (connectionStore : ConnectionStore)
           (defaultProfileValues : option ConnectionProfile)
  : completion (option ConnectionProfile) :=
  fst (run L Credentials Azure prompter connectionStore defaultProfileValues).

Definition effects {ConnectionStore : Type} (L : LocalizedConstants)
           (Credentials : ConnectionCredentials ConnectionStore)
           (Azure : AzureExchange)
           (prompter : IPrompter) (connectionStore : ConnectionStore)
           (defaultProfileValues : option ConnectionProfile)
  : list Event :=
  trace (snd (run L Credentials Azure prompter connectionStore
                  defaultProfileValues)).

(** [answers && ...]: an answer object is truthy, [undefined] is not. *)
Definition answered (answers : option Answers) : bool :=
  match answers with
  | Some _ => true
  | None => false
  end.

(** The question lists handed to the prompter, call by call. *)
Fixpoint promptedQuestions (t : list Event) : list (list IQuestion) :=
  match t with
  | [] => []
  | EvPrompt questions _ _ :: t' => questions :: promptedQuestions t'
  | _ :: t' => promptedQuestions t'
  end.


(** ** A prompter and a credential layer to run the protocol on *)

(** Modelled from the spec: the prompter implements [IPrompter] in
    [../prompts], which is not among the sources.  By the spec it "evaluates
    each question's visibility predicate against answers gathered so far, in
    sequence order, and invokes each question's answer-applied callback as
    answers are produced", and resolves to the answer set or to nothing when
    the user aborts.  The user is a script: per question shown, an answer, or
    [None] for the abort. *)
Fixpoint ask (questions : list IQuestion) (script : list (option value))
         (answers : Answers) (draft : ConnectionProfile)
  : option Answers * ConnectionProfile :=
  match questions with
  | [] => (Some answers, draft)
  | q :: rest =>
      let shown := match shouldPrompt q with
                   | Some visible => visible answers draft
                   | None => true
                   end in
      if shown then
        match script with
        | Some v :: script' =>
            ask rest script' (answers ++ [(name q, v)])
                (match onAnswered q with
                 | Some assign => assign v draft
                 | None => draft
                 end)
        | _ => (None, draft)
        end
      else ask rest script answers draft
  end.

Definition scriptedPrompter (script : list (option value)) : IPrompter :=
  mkPrompter (fun questions _ draft => ask questions script [] draft).

Module Example.

Definition asStr (v : value) : str :=
  match v with
  | VString s => Some s
  | _ => None
  end.

Definition set_server (s : str) (p : ConnectionProfile) :=
  mkProfile s (user p) (authenticationType p) (connectionString p)
            (profileName p) (savePassword p) (emptyPasswordInput p).

Definition set_user (s : str) (p : ConnectionProfile) :=
  mkProfile (server p) s (authenticationType p) (connectionString p)
            (profileName p) (savePassword p) (emptyPasswordInput p).

Definition constants : LocalizedConstants :=
  mkConstants "Save Password?" "Profile Name" "[Optional] Enter a name".

(** A credential layer with three questions: the server, the
    authentication type when none is chosen yet, and the user for a
    password login. *)
Definition serverQuestion : IQuestion :=
  mkQuestion QuestionTypes.input "Server name" "Server name" None VUndefined
             None (Some (fun v p => set_server (asStr v) p)).

Definition authenticationQuestion : IQuestion :=
  mkQuestion (QuestionTypes.other "expand") "Authentication Type"
             "Authentication Type" None VUndefined
             (Some (fun _ p => negb (truthyStr (authenticationType p))))
             (Some (fun v p => set_authenticationType (asStr v) p)).

Definition userQuestion : IQuestion :=
  mkQuestion QuestionTypes.input "User name" "User name" None VUndefined
             (Some (fun _ p => strictEq (authenticationType p) "SqlLogin"))
             (Some (fun v p => set_user (asStr v) p)).

Definition choice (t : AuthenticationTypes) : INameValueChoice :=
  mkChoice (AuthenticationTypes_name t) (AuthenticationTypes_name t).

Definition credentials (choices : list AuthenticationTypes)
  : ConnectionCredentials unit :=
  mkCredentials (map choice choices)
    (fun _ _ _ _ _ => [serverQuestion; authenticationQuestion; userQuestion])
    (fun p => strictEq (authenticationType p) "SqlLogin").

Definition allChoices : list AuthenticationTypes :=
  [SqlLogin; Integrated; ActiveDirectoryUniversal].

(** The exchange goes through, and the login it starts fails later. *)
Definition exchangeOk : AzureExchange :=
  mkExchange (Returns tt) (Returns LoginFails).

(** The controller cannot be initialised. *)
Definition exchangeDown : AzureExchange :=
  mkExchange (Throws "init failed") (Returns LoginSucceeds).

(** db1, SQL login, admin, save the password, no profile name. *)
Definition sqlLoginScript : list (option value) :=
  [Some (VString "db1"); Some (VString "SqlLogin"); Some (VString "admin");
   Some (VBool true); Some (VString "")].

(** db1, Active Directory, profile name "prod". *)
Definition activeDirectoryScript : list (option value) :=
  [Some (VString "db1"); Some (VString "ActiveDirectoryUniversal");
   Some (VString "prod")].

(** db1, Active Directory, then Escape at the profile name. *)
Definition escapeScript : list (option value) :=
  [Some (VString "db1"); Some (VString "ActiveDirectoryUniversal"); None].

(** SQL login, but Enter on an empty user name. *)
Definition noUserScript : list (option value) :=
  [Some (VString "db1"); Some (VString "SqlLogin"); Some (VString "");
   Some (VBool false); Some (VString "dev")].

(** A prompter whose user leaves at once: no callback, no answers. *)
Definition dismissed : IPrompter :=
  mkPrompter (fun _ _ draft => (None, draft)).

Definition activeDirectoryDraft : ConnectionProfile :=
  mkProfile (Some "db1") None (Some "ActiveDirectoryUniversal") None
            VUndefined VUndefined VUndefined.



(** The controller is there, but [startLogin] throws. *)
Definition exchangeLoginThrows : AzureExchange :=
  mkExchange (Returns tt) (Throws "login failed").

End Example.

(** The sequential reading of [createProfile]: what is left once the draft
    after prompting is known. *)
Definition afterExchange (answers : option Answers) (d : ConnectionProfile)
           (t : list Event) : completion (option ConnectionProfile) * Heap :=
  match answers with
  | Some _ => (Returns (if isValidProfile d then Some d else None),
               mkHeap d (t ++ [EvIsValidProfile d]))
  | None => (Returns None, mkHeap d t)
  end.

Definition afterPrompt (Azure : AzureExchange) (answers : option Answers)
           (d : ConnectionProfile) (t : list Event)
  : completion (option ConnectionProfile) * Heap :=
  if isAzureActiveDirectory d then
    match init Azure with
    | Throws e => (Throws e, mkHeap d (t ++ [EvControllerInit]))
    | Returns _ =>
        match startLogin Azure with
        | Throws e =>
            (Throws e, mkHeap d (t ++ [EvControllerInit; EvStartLogin]))
        | Returns test =>
            afterExchange answers d
              (t ++ [EvControllerInit; EvStartLogin; EvConsoleLog test])
        end
    end
  else afterExchange answers d t.

(** * Properties *)

(** ** The validator *)

Section Validator.

Lemma truthyStr_nonEmpty (s : str) : truthyStr s = true <-> Rule.nonEmpty s.
Proof.
  unfold Rule.nonEmpty. destruct s as [t|]; simpl.
  - rewrite negb_true_iff, String.eqb_neq. split.
    + intros H. exists t. split; [reflexivity | exact H].
    + intros [t' [E H]]. injection E as ->. exact H.
  - split; [discriminate | intros [t [E _]]; discriminate].
Qed.

Lemma isNotEmpty_nonEmpty (s : str) : isNotEmpty s = true <-> Rule.nonEmpty s.
Proof. exact (truthyStr_nonEmpty s). Qed.

Lemma truthyStr_unset (s : str) : truthyStr s = false <-> Rule.unset s.
Proof.
  unfold Rule.unset. destruct s as [t|]; simpl.
  - rewrite negb_false_iff, String.eqb_eq. split.
    + intros ->. right. reflexivity.
    + intros [E|E]; [discriminate | injection E as ->; reflexivity].
  - split; [intros _; left; reflexivity | reflexivity].
Qed.

Lemma strictEq_eq (s : str) (lit : string) :
  strictEq s lit = true <-> s = Some lit.
Proof.
  destruct s as [t|]; simpl.
  - rewrite String.eqb_eq. split; [intros -> | intros E; injection E as ->];
      reflexivity.
  - split; discriminate.
Qed.

Lemma noExplicitUser_test (s : str) :
  strictEq s (AuthenticationTypes_name Integrated)
  || strictEq s (AuthenticationTypes_name ActiveDirectoryUniversal) = true
  <-> Rule.noExplicitUser s.
Proof.
  unfold Rule.noExplicitUser. rewrite orb_true_iff, !strictEq_eq. reflexivity.
Qed.

(** The validator as a decision of the rule. *)
Lemma isValidProfile_valid (d : ConnectionProfile) :
  isValidProfile d = true <-> Rule.valid d.
Proof.
  unfold isValidProfile, Rule.valid.
  destruct (truthyStr (connectionString d)) eqn:Ecs.
  - apply truthyStr_nonEmpty in Ecs. split; [intros _; left; exact Ecs | reflexivity].
  - assert (Hcs : ~ Rule.nonEmpty (connectionString d)).
    { rewrite <- truthyStr_nonEmpty, Ecs. discriminate. }
    destruct (truthyStr (authenticationType d)) eqn:Eat.
    + assert (Hat : ~ Rule.unset (authenticationType d)).
      { rewrite <- truthyStr_unset, Eat. discriminate. }
      destruct (strictEq _ _ || strictEq _ _) eqn:Emode.
      * apply noExplicitUser_test in Emode. rewrite isNotEmpty_nonEmpty. split.
        -- intros Hs. right. repeat split; [exact Hat | exact Hs |].
           intros Hn. contradiction.
        -- intros [Hc | [_ [Hs _]]]; [contradiction | exact Hs].
      * assert (Hmode : ~ Rule.noExplicitUser (authenticationType d)).
        { rewrite <- noExplicitUser_test, Emode. discriminate. }
        rewrite andb_true_iff, !isNotEmpty_nonEmpty. split.
        -- intros [Hs Hu]. right. repeat split; [exact Hat | exact Hs |].
           intros _. exact Hu.
        -- intros [Hc | [_ [Hs Hu]]]; [contradiction |].
           split; [exact Hs | exact (Hu Hmode)].
    + apply truthyStr_unset in Eat. split; [discriminate |].
      intros [Hc | [Hat _]]; contradiction.
Qed.

End Validator.

(** C1. [isValidProfile] returns true exactly when the validity rule of the
    data model holds, and it follows the cascade of the rule: a non-empty
    connection string makes the draft valid whatever the other fields are;
    without one, an unset authentication type (never assigned, or the empty
    string, which the test [if (this.authenticationType)] treats alike)
    makes it invalid; with [Integrated] or [ActiveDirectoryUniversal] it is
    valid iff the server is non-empty, the user playing no part; with any
    other authentication type it is valid iff server and user are both
    non-empty. *)
Theorem isValidProfile_matches_rule (d : ConnectionProfile) :
  (isValidProfile d = true <-> Rule.valid d)
  /\ (Rule.nonEmpty (connectionString d) -> isValidProfile d = true)
  /\ (~ Rule.nonEmpty (connectionString d) ->
      Rule.unset (authenticationType d) -> isValidProfile d = false)
  /\ (~ Rule.nonEmpty (connectionString d) ->
      ~ Rule.unset (authenticationType d) ->
      Rule.noExplicitUser (authenticationType d) ->
      (isValidProfile d = true <-> Rule.nonEmpty (server d)))
  /\ (~ Rule.nonEmpty (connectionString d) ->
      ~ Rule.unset (authenticationType d) ->
      ~ Rule.noExplicitUser (authenticationType d) ->
      (isValidProfile d = true
       <-> Rule.nonEmpty (server d) /\ Rule.nonEmpty (user d))).
Proof.
  split; [exact (isValidProfile_valid d) |].
  rewrite <- !truthyStr_nonEmpty, <- truthyStr_unset, <- noExplicitUser_test.
  unfold isValidProfile. change isNotEmpty with truthyStr.
  destruct (truthyStr (connectionString d)), (truthyStr (authenticationType d)),
    (strictEq _ _ || strictEq _ _), (truthyStr (server d)),
    (truthyStr (user d)); simpl; intuition congruence.
Qed.

(** The Active Directory draft of the examples is valid by the rule: the
    server is there, and the mode asks for no user. *)
Lemma isValidProfile_matches_rule_witness :
  Rule.valid Example.activeDirectoryDraft.
Proof.
  apply (proj1 (proj1 (isValidProfile_matches_rule Example.activeDirectoryDraft))).
  reflexivity.
Defined.

(** C10. Validity does not depend on [profileName], [savePassword] or
    [emptyPasswordInput]: two drafts that agree on the connection string, the
    authentication type, the server and the user get the same verdict. *)
Theorem isValidProfile_ignores_profile_fields (p q : ConnectionProfile) :
  connectionString p = connectionString q ->
  authenticationType p = authenticationType q ->
  server p = server q ->
  user p = user q ->
  isValidProfile p = isValidProfile q.
Proof.
  intros Hc Ha Hs Hu. unfold isValidProfile. rewrite Hc, Ha, Hs, Hu.
  reflexivity.
Qed.

Lemma isValidProfile_ignores_profile_fields_witness :
  isValidProfile (mkProfile (Some "db1") (Some "admin") (Some "SqlLogin") None
                            VUndefined VUndefined VUndefined)
  = isValidProfile (mkProfile (Some "db1") (Some "admin") (Some "SqlLogin") None
                              (VString "prod") (VBool true) (VBool false)).
Proof.
  apply isValidProfile_ignores_profile_fields; reflexivity.
Defined.

(** ** The two questions of the builder *)

(** C6. The save-password question is shown iff the draft has no connection
    string (none assigned, or an empty one) and the credential layer
    classifies the draft as password-based; a draft that carries a
    connection string is never asked, whatever its authentication type. *)
Theorem savePassword_shouldPrompt_iff {ConnectionStore : Type}
        (L : LocalizedConstants)
        (Credentials : ConnectionCredentials ConnectionStore) :
  exists visible,
    shouldPrompt (savePasswordQuestion L Credentials) = Some visible
    /\ forall (answers : Answers) (draft : ConnectionProfile),
      (visible answers draft = true
       <-> ~ Rule.nonEmpty (connectionString draft)
           /\ isPasswordBasedCredential Credentials draft = true)
      /\ (Rule.nonEmpty (connectionString draft) ->
          visible answers draft = false).
Proof.
  eexists. split; [reflexivity |]. intros answers draft. cbv beta.
  rewrite <- truthyStr_nonEmpty.
  destruct (truthyStr (connectionString draft)),
    (isPasswordBasedCredential Credentials draft); simpl;
    intuition congruence.
Qed.

(** A SQL-login draft is password-based for the credential layer of the
    examples, yet with a connection string the question stays hidden. *)
Lemma savePassword_shouldPrompt_iff_witness :
  exists visible,
    shouldPrompt (savePasswordQuestion Example.constants
                    (Example.credentials Example.allChoices)) = Some visible
    /\ visible [] (mkProfile None None (Some "SqlLogin")
                             (Some "Server=db1;Database=sales")
                             VUndefined VUndefined VUndefined) = false.
Proof.
  destruct (savePassword_shouldPrompt_iff Example.constants
              (Example.credentials Example.allChoices)) as [visible [E H]].
  exists visible. split; [exact E |].
  apply H. exists "Server=db1;Database=sales".
  split; [reflexivity | discriminate].
Defined.

(** C7. The callback of the profile-name question stores the answer when it
    is truthy and [undefined] when it is falsy; it never stores an empty
    string, and what it stores does not depend on the name the draft had. *)
Theorem profileName_onAnswered_sets_or_unsets
        (L : LocalizedConstants)
        (defaultProfileValues : option ConnectionProfile) :
  exists assign,
    onAnswered (profileNameQuestion L defaultProfileValues) = Some assign
    /\ forall (v : value) (draft : ConnectionProfile),
      profileName (assign v draft) = (if truthy v then v else VUndefined)
      /\ (truthy v = true -> profileName (assign v draft) = v)
      /\ (truthy v = false -> profileName (assign v draft) = VUndefined)
      /\ profileName (assign v draft) <> VString ""
      /\ forall stale : value,
          profileName (assign v (set_profileName stale draft))
          = profileName (assign v draft).
Proof.
  eexists. split; [reflexivity |]. intros v draft. cbv beta. simpl.
  repeat split.
  - intros ->. reflexivity.
  - intros ->. reflexivity.
  - destruct v as [|b|s]; simpl; try discriminate.
    + destruct b; discriminate.
    + destruct s; simpl; [discriminate |]. intros H. discriminate H.
Qed.

(** Enter on an empty input over a draft named "old" leaves no name. *)
Lemma profileName_onAnswered_sets_or_unsets_witness :
  exists assign,
    onAnswered (profileNameQuestion Example.constants None) = Some assign
    /\ profileName (assign (VString "")
                           (set_profileName (VString "old")
                                            newConnectionProfile))
       = VUndefined.
Proof.
  destruct (profileName_onAnswered_sets_or_unsets Example.constants None)
    as [assign [E H]].
  exists assign. split; [exact E |].
  apply (H (VString "")). reflexivity.
Defined.

(** ** The protocol *)

Section Protocol.

Context {ConnectionStore : Type}.
Variable L : LocalizedConstants.
Variable Credentials : ConnectionCredentials ConnectionStore.
Variable Azure : AzureExchange.
Variable prompter : IPrompter.
Variable connectionStore : ConnectionStore.
Variable defaultProfileValues : option ConnectionProfile.

Let d0 := draftBeforePrompting Credentials.
Let questions :=
  builtQuestions L Credentials connectionStore defaultProfileValues.
Let outcome :=
  promptOutcome L Credentials prompter connectionStore defaultProfileValues.

(** A call of [createProfile] asks the credential layer, prompts, and goes
    on as [afterPrompt] says. *)
Lemma run_sequential :
  run L Credentials Azure prompter connectionStore defaultProfileValues
  = afterPrompt Azure (fst outcome) (snd outcome)
      [EvCredentialQuestions d0; EvPrompt questions true d0].
Proof.
  subst outcome questions d0.
  unfold run, createProfile, promptOutcome, builtQuestions,
    draftBeforePrompting, callPrompt, callIsValidProfile,
    authenticationExchange, afterPrompt, afterExchange,
    bind, writeProfile, readProfile, emit, ret, await.
  destruct (getAuthenticationTypesChoice Credentials) as [|only [|]];
    cbv beta iota zeta delta [profile trace];
    match goal with
    | |- context [prompt prompter ?q true ?d] =>
        destruct (prompt prompter q true d) as [answers d']
    end;
    cbv beta iota zeta delta [profile trace fst snd];
    destruct (isAzureActiveDirectory d'), (init Azure), (startLogin Azure),
      answers, (isValidProfile d');
    reflexivity.
Qed.

End Protocol.

(** Splits a statement about a call into the ways the call can go: what the
    prompter answered, whether the draft is an Active Directory one, how the
    two steps of the exchange end, and what the validator says. *)
Ltac protocol_cases :=
  unfold result, effects, answersOf, draftAfterPrompt;
  rewrite ?run_sequential;
  unfold afterPrompt, afterExchange;
  let answers := fresh "answers" in
  let d := fresh "d" in
  match goal with
  | |- context [promptOutcome ?l ?c ?p ?s ?v] =>
      destruct (promptOutcome l c p s v) as [answers d]
  end;
  cbn [fst snd];
  match goal with
  | |- context [if isAzureActiveDirectory ?x then match init ?az with _ => _ end else _] =>
      destruct (isAzureActiveDirectory x) eqn:Eaad,
        (init az) as [[]|e1] eqn:Einit,
        (startLogin az) as [test|e2] eqn:Elogin,
        answers as [a|],
        (isValidProfile x) eqn:Evalid
  end;
  cbn.

Lemma isAzureActiveDirectory_eq (d : ConnectionProfile) :
  isAzureActiveDirectory d = true
  <-> authenticationType d = Some "ActiveDirectoryUniversal".
Proof. exact (strictEq_eq (authenticationType d) "ActiveDirectoryUniversal"). Qed.

(** An Active Directory draft needs a server and nothing else. *)
Lemma activeDirectory_valid (d : ConnectionProfile) :
  authenticationType d = Some "ActiveDirectoryUniversal" ->
  Rule.nonEmpty (server d) ->
  isValidProfile d = true.
Proof.
  intros Ha Hs. apply isValidProfile_valid. right. rewrite Ha.
  split; [| split].
  - intros [E|E]; discriminate.
  - exact Hs.
  - intros Hn. exfalso. apply Hn. right. reflexivity.
Qed.


Section Claims.

Context {ConnectionStore : Type}.
Variable L : LocalizedConstants.
Variable Credentials : ConnectionCredentials ConnectionStore.
Variable Azure : AzureExchange.
Variable prompter : IPrompter.
Variable connectionStore : ConnectionStore.
Variable defaultProfileValues : option ConnectionProfile.

(** C9. The prompter is called once, with the questions of the credential
    layer in their order, followed by the save-password confirmation and
    then the profile-name input, and nothing else. *)
Theorem createProfile_question_order :
  promptedQuestions
    (effects L Credentials Azure prompter connectionStore
             defaultProfileValues)
  = [getRequiredCredentialValuesQuestions Credentials
       (draftBeforePrompting Credentials) true false connectionStore
       defaultProfileValues
     ++ [savePasswordQuestion L Credentials;
         profileNameQuestion L defaultProfileValues]]
  /\ type (savePasswordQuestion L Credentials) = QuestionTypes.confirm
  /\ name (savePasswordQuestion L Credentials) = msgSavePassword L
  /\ type (profileNameQuestion L defaultProfileValues) = QuestionTypes.input
  /\ name (profileNameQuestion L defaultProfileValues) = profileNamePrompt L.
Proof.
  split; [| repeat split].
  protocol_cases; reflexivity.
Qed.


(** C3. When the prompter has given answers, the authentication exchange
    is performed exactly when the draft's authentication type is
    [ActiveDirectoryUniversal].  For such a draft with a non-empty server,
    whether or not it has a user, a call in which the exchange goes through
    returns the draft, which is valid, and the exchange has run. *)
Theorem createProfile_exchange_iff_active_directory :
  (answered (answersOf L Credentials prompter connectionStore
                       defaultProfileValues) = true ->
   (exchangeInvoked (effects L Credentials Azure prompter connectionStore
                             defaultProfileValues) = true
    <-> authenticationType
          (draftAfterPrompt L Credentials prompter connectionStore
                            defaultProfileValues)
        = Some (AuthenticationTypes_name ActiveDirectoryUniversal)))
  /\ (answered (answersOf L Credentials prompter connectionStore
                          defaultProfileValues) = true ->
      authenticationType
        (draftAfterPrompt L Credentials prompter connectionStore
                          defaultProfileValues)
      = Some (AuthenticationTypes_name ActiveDirectoryUniversal) ->
      Rule.nonEmpty
        (server (draftAfterPrompt L Credentials prompter connectionStore
                                  defaultProfileValues)) ->
      init Azure = Returns tt ->
      (exists test, startLogin Azure = Returns test) ->
      result L Credentials Azure prompter connectionStore
             defaultProfileValues
      = Returns (Some (draftAfterPrompt L Credentials prompter
                                        connectionStore
                                        defaultProfileValues))
      /\ isValidProfile
           (draftAfterPrompt L Credentials prompter connectionStore
                             defaultProfileValues) = true
      /\ exchangeInvoked (effects L Credentials Azure prompter
                                  connectionStore defaultProfileValues)
         = true).
Proof.
  split.
  - protocol_cases; intros Ha; try discriminate Ha;
      rewrite <- isAzureActiveDirectory_eq, Eaad;
      split; (reflexivity || discriminate).
  - protocol_cases; intros Ha Hat Hs Hi [test' Ht];
      try discriminate; pose proof (activeDirectory_valid _ Hat Hs) as Hv;
      apply isAzureActiveDirectory_eq in Hat; try congruence.
    repeat split; reflexivity.
Qed.

(** C4. The validator is run only when the prompter has given answers, and
    then what the call returns is decided by the validator alone: whenever
    it returns, it returns the draft iff the validator accepts the draft;
    it does return, with that value, both when no exchange is due and when
    the exchange goes through, whatever becomes of the login that was
    started and never awaited (it succeeds, fails or stays pending). *)
Theorem createProfile_validity_ignores_exchange :
  (validatorRun (effects L Credentials Azure prompter connectionStore
                         defaultProfileValues) = true ->
   answered (answersOf L Credentials prompter connectionStore
                       defaultProfileValues) = true)
  /\ (answered (answersOf L Credentials prompter connectionStore
                          defaultProfileValues) = true ->
      forall r,
        result L Credentials Azure prompter connectionStore
               defaultProfileValues = Returns r ->
        (r = Some (draftAfterPrompt L Credentials prompter connectionStore
                                    defaultProfileValues)
         <-> isValidProfile
               (draftAfterPrompt L Credentials prompter connectionStore
                                 defaultProfileValues) = true)
        /\ (isValidProfile
              (draftAfterPrompt L Credentials prompter connectionStore
                                defaultProfileValues) = false ->
            r = None))
  /\ (answered (answersOf L Credentials prompter connectionStore
                          defaultProfileValues) = true ->
      isAzureActiveDirectory
        (draftAfterPrompt L Credentials prompter connectionStore
                          defaultProfileValues) = false
      \/ (init Azure = Returns tt
          /\ exists test : LoginHandle, startLogin Azure = Returns test) ->
      result L Credentials Azure prompter connectionStore
             defaultProfileValues
      = Returns
          (if isValidProfile
                (draftAfterPrompt L Credentials prompter connectionStore
                                  defaultProfileValues)
           then Some (draftAfterPrompt L Credentials prompter
                                       connectionStore defaultProfileValues)
           else None)).
Proof.
  split; [| split].
  - protocol_cases; intros H; (reflexivity || discriminate H).
  - protocol_cases; intros Ha r Hr; try discriminate;
      injection Hr as <-; intuition congruence.
  - protocol_cases; intros Ha [Hn | [Hi [test' Ht]]];
      try discriminate; reflexivity.
Qed.

End Claims.

(** ** Runs of the protocol *)



(** Server "db1", Active Directory, no user, and an exchange that goes
    through: the draft comes back. *)
Lemma createProfile_exchange_iff_active_directory_witness :
  result Example.constants (Example.credentials Example.allChoices)
         Example.exchangeOk (scriptedPrompter Example.activeDirectoryScript)
         tt None
  = Returns (Some (draftAfterPrompt
                     Example.constants
                     (Example.credentials Example.allChoices)
                     (scriptedPrompter Example.activeDirectoryScript)
                     tt None))
  /\ isValidProfile
       (draftAfterPrompt Example.constants
                         (Example.credentials Example.allChoices)
                         (scriptedPrompter Example.activeDirectoryScript)
                         tt None) = true
  /\ exchangeInvoked
       (effects Example.constants (Example.credentials Example.allChoices)
                Example.exchangeOk
                (scriptedPrompter Example.activeDirectoryScript) tt None)
     = true.
Proof.
  apply (proj2 (createProfile_exchange_iff_active_directory
                  Example.constants (Example.credentials Example.allChoices)
                  Example.exchangeOk
                  (scriptedPrompter Example.activeDirectoryScript) tt None)).
  - reflexivity.
  - reflexivity.
  - exists "db1". split; [reflexivity | discriminate].
  - reflexivity.
  - exists LoginFails. reflexivity.
Defined.

(** The same run read for its result: the login of [Example.exchangeOk]
    fails later, and the draft is returned all the same. *)
Lemma createProfile_validity_ignores_exchange_witness :
  result Example.constants (Example.credentials Example.allChoices)
         Example.exchangeOk (scriptedPrompter Example.activeDirectoryScript)
         tt None
  = Returns
      (if isValidProfile
            (draftAfterPrompt Example.constants
                              (Example.credentials Example.allChoices)
                              (scriptedPrompter Example.activeDirectoryScript)
                              tt None)
       then Some (draftAfterPrompt
                    Example.constants
                    (Example.credentials Example.allChoices)
                    (scriptedPrompter Example.activeDirectoryScript) tt None)
       else None).
Proof.
  apply (proj2 (proj2 (createProfile_validity_ignores_exchange
                         Example.constants
                         (Example.credentials Example.allChoices)
                         Example.exchangeOk
                         (scriptedPrompter Example.activeDirectoryScript)
                         tt None))).
  - reflexivity.
  - right. split; [reflexivity | exists LoginFails; reflexivity].
Defined.

(** What an aborted prompt leads to, in general: the validator is not run;
    the exchange is started exactly when the draft, as the callbacks left
    it, is an Active Directory one; and the sentinel is returned unless the
    exchange throws. *)
Lemma aborted_prompt_behaviour {ConnectionStore : Type}
      (L : LocalizedConstants)
      (Credentials : ConnectionCredentials ConnectionStore)
      (Azure : AzureExchange) (prompter : IPrompter)
      (connectionStore : ConnectionStore)
      (defaultProfileValues : option ConnectionProfile) :
  answersOf L Credentials prompter connectionStore defaultProfileValues = None ->
  validatorRun (effects L Credentials Azure prompter connectionStore
                        defaultProfileValues) = false
  /\ exchangeInvoked (effects L Credentials Azure prompter connectionStore
                              defaultProfileValues)
     = isAzureActiveDirectory
         (draftAfterPrompt L Credentials prompter connectionStore
                           defaultProfileValues)
  /\ (forall r,
         result L Credentials Azure prompter connectionStore
                defaultProfileValues = Returns r -> r = None).
Proof.
  protocol_cases; intros Hn; try discriminate Hn;
    repeat split; try reflexivity; intros r Hr; try discriminate Hr;
    injection Hr as <-; reflexivity.
Qed.

(** C2, on the code.  The user enters a server, picks Active Directory and
    presses Escape at the profile name: the prompter resolves to nothing.
    The validator is not run and, the exchange going through, the sentinel
    is returned; but the exchange is invoked (controller initialisation and
    login), and when the initialisation fails the call throws instead of
    returning the sentinel.  The same happens when Active Directory is the
    only choice and the user leaves at the first question. *)
Theorem createProfile_aborted_still_runs_exchange :
  answersOf Example.constants (Example.credentials Example.allChoices)
            (scriptedPrompter Example.escapeScript) tt None = None
  /\ result Example.constants (Example.credentials Example.allChoices)
            Example.exchangeOk (scriptedPrompter Example.escapeScript) tt None
     = Returns None
  /\ validatorRun
       (effects Example.constants (Example.credentials Example.allChoices)
                Example.exchangeOk (scriptedPrompter Example.escapeScript)
                tt None) = false
  /\ exchangeInvoked
       (effects Example.constants (Example.credentials Example.allChoices)
                Example.exchangeOk (scriptedPrompter Example.escapeScript)
                tt None) = true
  /\ filter isExchangeEvent
       (effects Example.constants (Example.credentials Example.allChoices)
                Example.exchangeOk (scriptedPrompter Example.escapeScript)
                tt None)
     = [EvControllerInit; EvStartLogin; EvConsoleLog LoginFails]
  /\ result Example.constants (Example.credentials Example.allChoices)
            Example.exchangeDown (scriptedPrompter Example.escapeScript)
            tt None
     = Throws "init failed"
  /\ exchangeInvoked
       (effects Example.constants
                (Example.credentials [ActiveDirectoryUniversal])
                Example.exchangeOk Example.dismissed tt None) = true.
Proof. repeat split; reflexivity. Qed.

(** C5, on the code.  A cancelled prompt can end in a throw.  The user
    enters a server, picks Active Directory and presses Escape, or Active
    Directory is the only choice and the user leaves at once: the prompter
    resolves to nothing, the exchange is started all the same, and when the
    controller's initialisation rejects, or [startLogin] throws, the call
    throws that failure where the sentinel was due.  The same cancelled
    prompts give the sentinel when the exchange goes through. *)
Theorem createProfile_cancelled_prompt_throws :
  answersOf Example.constants (Example.credentials Example.allChoices)
            (scriptedPrompter Example.escapeScript) tt None = None
  /\ result Example.constants (Example.credentials Example.allChoices)
            Example.exchangeDown (scriptedPrompter Example.escapeScript)
            tt None
     = Throws "init failed"
  /\ result Example.constants (Example.credentials Example.allChoices)
            Example.exchangeLoginThrows
            (scriptedPrompter Example.escapeScript) tt None
     = Throws "login failed"
  /\ result Example.constants (Example.credentials Example.allChoices)
            Example.exchangeOk (scriptedPrompter Example.escapeScript)
            tt None
     = Returns None
  /\ answersOf Example.constants
               (Example.credentials [ActiveDirectoryUniversal])
               Example.dismissed tt None = None
  /\ result Example.constants
            (Example.credentials [ActiveDirectoryUniversal])
            Example.exchangeDown Example.dismissed tt None
     = Throws "init failed"
  /\ result Example.constants
            (Example.credentials [ActiveDirectoryUniversal])
            Example.exchangeOk Example.dismissed tt None
     = Returns None.
Proof. repeat split; reflexivity. Qed.

(** * Further properties of the three methods *)

(** ** The validator on its own *)

(** X8. Without a connection string and without a server no draft is valid,
    whatever its authentication type and user are. *)
Theorem isValidProfile_needs_server_or_connectionString
        (d : ConnectionProfile) :
  ~ Rule.nonEmpty (connectionString d) ->
  ~ Rule.nonEmpty (server d) ->
  isValidProfile d = false.
Proof.
  rewrite <- !truthyStr_nonEmpty. intros Hc Hs.
  unfold isValidProfile. change isNotEmpty with truthyStr.
  destruct (truthyStr (connectionString d)); [contradiction Hc; reflexivity |].
  destruct (truthyStr (server d)); [contradiction Hs; reflexivity |].
  destruct (truthyStr (authenticationType d)); [| reflexivity].
  destruct (strictEq _ _ || strictEq _ _); reflexivity.
Qed.

(** A SQL login with a user and a password to come, but no server. *)
Lemma isValidProfile_needs_server_or_connectionString_witness :
  isValidProfile (mkProfile None (Some "admin") (Some "SqlLogin") (Some "")
                            (VString "prod") (VBool true) VUndefined)
  = false.
Proof.
  apply isValidProfile_needs_server_or_connectionString;
    intros [t [E H]]; [injection E as <-; apply H; reflexivity | discriminate].
Defined.

(** X9. Switching a valid draft to [Integrated] or to
    [ActiveDirectoryUniversal] keeps it valid: these modes ask for less.  The
    other direction fails: an Integrated draft without a user stops being
    valid as a SQL login. *)
Theorem isValidProfile_relaxed_mode (d : ConnectionProfile)
        (t : AuthenticationTypes) :
  isValidProfile d = true ->
  t <> SqlLogin ->
  isValidProfile
    (set_authenticationType (Some (AuthenticationTypes_name t)) d) = true.
Proof.
  unfold isValidProfile, set_authenticationType.
  cbn [connectionString authenticationType server user].
  intros Hv Ht.
  destruct (truthyStr (connectionString d)); [reflexivity |].
  destruct (truthyStr (authenticationType d)); [| discriminate Hv].
  assert (Hs : isNotEmpty (server d) = true).
  { destruct (strictEq _ _ || strictEq _ _); [exact Hv |].
    apply andb_true_iff in Hv. exact (proj1 Hv). }
  destruct t; [exact Hs | contradiction Ht; reflexivity | exact Hs].
Qed.

Lemma isValidProfile_relaxed_mode_witness :
  isValidProfile
    (set_authenticationType
       (Some "Integrated")
       (mkProfile (Some "db1") (Some "admin") (Some "SqlLogin") None
                  VUndefined VUndefined VUndefined)) = true
  /\ isValidProfile
       (set_authenticationType
          (Some "SqlLogin")
          (mkProfile (Some "db1") None (Some "Integrated") None
                     VUndefined VUndefined VUndefined)) = false.
Proof.
  split; [| reflexivity].
  apply (isValidProfile_relaxed_mode _ Integrated);
    [reflexivity | discriminate].
Defined.

(** ** The callbacks of the two questions *)

(** X6. Answering the save-password or the profile-name question changes
    none of the four fields the validator and [isAzureActiveDirectory] read
    (server, user, connection string, authentication type), nor
    [emptyPasswordInput]: the draft stays as valid as it was, and the
    exchange stays as due. *)
Theorem builder_answers_keep_validity {ConnectionStore : Type}
        (L : LocalizedConstants)
        (Credentials : ConnectionCredentials ConnectionStore)
        (defaultProfileValues : option ConnectionProfile)
        (q : IQuestion)
        (assign : value -> ConnectionProfile -> ConnectionProfile)
        (v : value) (d : ConnectionProfile) :
  In q [savePasswordQuestion L Credentials;
        profileNameQuestion L defaultProfileValues] ->
  onAnswered q = Some assign ->
  isValidProfile (assign v d) = isValidProfile d
  /\ isAzureActiveDirectory (assign v d) = isAzureActiveDirectory d
  /\ server (assign v d) = server d
  /\ user (assign v d) = user d
  /\ connectionString (assign v d) = connectionString d
  /\ authenticationType (assign v d) = authenticationType d
  /\ emptyPasswordInput (assign v d) = emptyPasswordInput d.
Proof.
  intros [<- | [<- | []]] E; injection E as <-;
    repeat split; reflexivity.
Qed.

(** Yes to saving the password on a valid SQL-login draft. *)
Lemma builder_answers_keep_validity_witness :
  isValidProfile
    (set_savePassword
       (VBool true)
       (mkProfile (Some "db1") (Some "admin") (Some "SqlLogin") None
                  VUndefined VUndefined VUndefined))
  = isValidProfile
      (mkProfile (Some "db1") (Some "admin") (Some "SqlLogin") None
                 VUndefined VUndefined VUndefined).
Proof.
  exact (proj1 (builder_answers_keep_validity
                  Example.constants
                  (Example.credentials Example.allChoices) None
                  (savePasswordQuestion
                     Example.constants
                     (Example.credentials Example.allChoices))
                  (fun v p => set_savePassword v p) (VBool true)
                  (mkProfile (Some "db1") (Some "admin") (Some "SqlLogin")
                             None VUndefined VUndefined VUndefined)
                  (or_introl eq_refl) eq_refl)).
Defined.

(** X7. The two callbacks compose as assignments to two different fields:
    a later answer to the same question replaces the earlier one without a
    trace, the two questions can be answered in either order, and the
    save-password answer is stored as it comes, a "no" staying [false] where
    an empty profile name becomes [undefined]. *)
Theorem builder_answers_compose {ConnectionStore : Type}
        (L : LocalizedConstants)
        (Credentials : ConnectionCredentials ConnectionStore)
        (defaultProfileValues : option ConnectionProfile) :
  exists save rename,
    onAnswered (savePasswordQuestion L Credentials) = Some save
    /\ onAnswered (profileNameQuestion L defaultProfileValues) = Some rename
    /\ forall (v w : value) (d : ConnectionProfile),
      save w (save v d) = save w d
      /\ rename w (rename v d) = rename w d
      /\ save v (rename w d) = rename w (save v d)
      /\ savePassword (save v d) = v
      /\ profileName (save v d) = profileName d
      /\ savePassword (rename w d) = savePassword d.
Proof.
  do 2 eexists. split; [reflexivity |]. split; [reflexivity |].
  intros v w d. repeat split.
Qed.

(** ** The protocol, call by call *)

Section Calls.

Context {ConnectionStore : Type}.
Variable L : LocalizedConstants.
Variable Credentials : ConnectionCredentials ConnectionStore.
Variable Azure : AzureExchange.
Variable prompter : IPrompter.
Variable connectionStore : ConnectionStore.
Variable defaultProfileValues : option ConnectionProfile.

(** X1. A profile that [createProfile] returns is the draft exactly as the
    prompter's callbacks left it; the prompter had given answers; and the
    profile has a non-empty connection string or a non-empty server. *)
Theorem createProfile_returned_profile (p : ConnectionProfile) :
  result L Credentials Azure prompter connectionStore defaultProfileValues
  = Returns (Some p) ->
  answered (answersOf L Credentials prompter connectionStore
                      defaultProfileValues) = true
  /\ p = draftAfterPrompt L Credentials prompter connectionStore
                          defaultProfileValues
  /\ isValidProfile p = true
  /\ (Rule.nonEmpty (connectionString p) \/ Rule.nonEmpty (server p)).
Proof.
  assert (Hrule : forall d, isValidProfile d = true ->
                            Rule.nonEmpty (connectionString d)
                            \/ Rule.nonEmpty (server d)).
  { intros d Hd. apply isValidProfile_valid in Hd.
    destruct Hd as [Hc | [_ [Hs _]]]; [left; exact Hc | right; exact Hs]. }
  protocol_cases; intros Hr; try discriminate Hr;
    injection Hr as <-; repeat split; auto.
Qed.

(** X2. Once the prompter has returned, [createProfile] does not write to the
    draft any more: neither the exchange nor the validator changes it,
    whether the call returns or throws. *)
Theorem createProfile_draft_untouched_after_prompt :
  profile (snd (run L Credentials Azure prompter connectionStore
                    defaultProfileValues))
  = draftAfterPrompt L Credentials prompter connectionStore
                     defaultProfileValues.
Proof. protocol_cases; reflexivity. Qed.

(** X3. The steps of the exchange come in order and a failure stops the call
    there: when [init()] rejects, [startLogin] is not called, nothing is
    logged and the validator is not run; when [startLogin] throws, nothing is
    logged and the validator is not run; otherwise what is logged is what
    [startLogin] returned. *)
Theorem exchange_failure_preempts_validation :
  exchangeInvoked (effects L Credentials Azure prompter connectionStore
                           defaultProfileValues) = true ->
  (forall e,
      init Azure = Throws e ->
      filter isExchangeEvent
             (effects L Credentials Azure prompter connectionStore
                      defaultProfileValues) = [EvControllerInit]
      /\ validatorRun (effects L Credentials Azure prompter connectionStore
                               defaultProfileValues) = false)
  /\ (forall e,
        init Azure = Returns tt ->
        startLogin Azure = Throws e ->
        filter isExchangeEvent
               (effects L Credentials Azure prompter connectionStore
                        defaultProfileValues)
        = [EvControllerInit; EvStartLogin]
        /\ validatorRun (effects L Credentials Azure prompter connectionStore
                                 defaultProfileValues) = false)
  /\ (forall test,
        init Azure = Returns tt ->
        startLogin Azure = Returns test ->
        filter isExchangeEvent
               (effects L Credentials Azure prompter connectionStore
                        defaultProfileValues)
        = [EvControllerInit; EvStartLogin; EvConsoleLog test]).
Proof.
  protocol_cases; intros Hx; try discriminate Hx;
    (split; [| split]); intros; try discriminate;
    try (split; reflexivity); congruence.
Qed.

(** X4. The calls of one run come in a fixed order: the credential layer is
    asked first, then the prompter is called, once, with [true] as its
    second argument and the draft the credential layer saw; then come the
    calls of the exchange, if any; and the validator, if it is run at all,
    is run once, last, on the draft as the prompter left it. *)
Theorem createProfile_call_order :
  exists exchange validation,
    effects L Credentials Azure prompter connectionStore defaultProfileValues
    = [EvCredentialQuestions (draftBeforePrompting Credentials);
       EvPrompt (builtQuestions L Credentials connectionStore
                                defaultProfileValues)
                true (draftBeforePrompting Credentials)]
      ++ exchange ++ validation
    /\ forallb isExchangeEvent exchange = true
    /\ (validation = []
        \/ validation
           = [EvIsValidProfile
                (draftAfterPrompt L Credentials prompter connectionStore
                                  defaultProfileValues)]).
Proof.
  protocol_cases;
    match goal with
    | |- context [EvConsoleLog ?t] =>
        exists [EvControllerInit; EvStartLogin; EvConsoleLog t]
    | |- context [EvStartLogin] => exists [EvControllerInit; EvStartLogin]
    | |- context [EvControllerInit] => exists [EvControllerInit]
    | |- _ => exists []
    end;
    match goal with
    | |- exists _, ?calls = _ /\ _ =>
        match calls with
        | context [EvIsValidProfile ?x] => exists [EvIsValidProfile x]
        | _ => exists []
        end
    end;
    (split; [reflexivity | split; [reflexivity |]]);
    solve [left; reflexivity | right; reflexivity].
Qed.

(** X5. The validator is run exactly when the prompter gave answers and no
    failure of the exchange came in between: the draft is no Active
    Directory one, or [init()] resolved and [startLogin] returned. *)
Theorem validator_run_iff :
  validatorRun (effects L Credentials Azure prompter connectionStore
                        defaultProfileValues) = true
  <-> answered (answersOf L Credentials prompter connectionStore
                          defaultProfileValues) = true
      /\ (isAzureActiveDirectory
            (draftAfterPrompt L Credentials prompter connectionStore
                              defaultProfileValues) = false
          \/ (init Azure = Returns tt
              /\ exists test, startLogin Azure = Returns test)).
Proof.
  protocol_cases; split;
    try (intros H; discriminate H);
    try (intros [Ha [Hn | [Hi [test' Ht]]]]; try discriminate; reflexivity);
    intros _; (split; [reflexivity |]);
    solve [left; reflexivity
          | right; split; [reflexivity | eexists; reflexivity]].
Qed.

(** X10. For a draft that is no Active Directory one after prompting, the
    Azure services play no part: no call of the exchange is made, and the
    whole run (result, draft and calls) is the same whatever they would have
    done. *)
Theorem createProfile_ignores_azure_unless_active_directory
        (Azure' : AzureExchange) :
  isAzureActiveDirectory
    (draftAfterPrompt L Credentials prompter connectionStore
                      defaultProfileValues) = false ->
  exchangeInvoked (effects L Credentials Azure prompter connectionStore
                           defaultProfileValues) = false
  /\ run L Credentials Azure prompter connectionStore defaultProfileValues
     = run L Credentials Azure' prompter connectionStore defaultProfileValues.
Proof.
  unfold effects, draftAfterPrompt. rewrite !run_sequential.
  unfold afterPrompt. intros ->. split; [| reflexivity].
  unfold afterExchange.
  destruct (fst (promptOutcome L Credentials prompter connectionStore
                               defaultProfileValues)); reflexivity.
Qed.

(** X11. With answers given and an Active Directory draft, a failure of the
    exchange is not caught: when [init()] rejects, the call throws that
    failure; when [init()] resolves and [startLogin] throws, the call throws
    that one. *)
Theorem exchange_failure_propagates :
  answered (answersOf L Credentials prompter connectionStore
                      defaultProfileValues) = true ->
  isAzureActiveDirectory
    (draftAfterPrompt L Credentials prompter connectionStore
                      defaultProfileValues) = true ->
  (forall e,
      init Azure = Throws e ->
      result L Credentials Azure prompter connectionStore
             defaultProfileValues = Throws e)
  /\ (forall e,
        init Azure = Returns tt ->
        startLogin Azure = Throws e ->
        result L Credentials Azure prompter connectionStore
               defaultProfileValues = Throws e).
Proof.
  protocol_cases; intros Ha Hd; try discriminate;
    split; intros; congruence.
Qed.

End Calls.

(** The Active Directory run of the examples returns the draft with server
    "db1". *)
Lemma createProfile_returned_profile_witness :
  Rule.nonEmpty (connectionString Example.activeDirectoryDraft)
  \/ Rule.nonEmpty (server Example.activeDirectoryDraft).
Proof.
  apply (createProfile_returned_profile
           Example.constants (Example.credentials Example.allChoices)
           Example.exchangeOk
           (scriptedPrompter [Some (VString "db1");
                              Some (VString "ActiveDirectoryUniversal");
                              Some (VString "")])
           tt None Example.activeDirectoryDraft).
  reflexivity.
Defined.

(** The controller cannot be initialised: only its initialisation shows in
    the calls, and the validator is not reached. *)
Lemma exchange_failure_preempts_validation_witness :
  filter isExchangeEvent
         (effects Example.constants (Example.credentials Example.allChoices)
                  Example.exchangeDown
                  (scriptedPrompter Example.activeDirectoryScript) tt None)
  = [EvControllerInit]
  /\ validatorRun
       (effects Example.constants (Example.credentials Example.allChoices)
                Example.exchangeDown
                (scriptedPrompter Example.activeDirectoryScript) tt None)
     = false.
Proof.
  apply (proj1 (exchange_failure_preempts_validation
                  Example.constants (Example.credentials Example.allChoices)
                  Example.exchangeDown
                  (scriptedPrompter Example.activeDirectoryScript) tt None
                  eq_refl)
               "init failed").
  reflexivity.
Defined.

(** A SQL login: the run is the same with a controller that is down. *)
Lemma createProfile_ignores_azure_unless_active_directory_witness :
  run Example.constants (Example.credentials Example.allChoices)
      Example.exchangeOk (scriptedPrompter Example.sqlLoginScript) tt None
  = run Example.constants (Example.credentials Example.allChoices)
        Example.exchangeDown (scriptedPrompter Example.sqlLoginScript)
        tt None.
Proof.
  apply (createProfile_ignores_azure_unless_active_directory
           Example.constants (Example.credentials Example.allChoices)
           Example.exchangeOk (scriptedPrompter Example.sqlLoginScript)
           tt None Example.exchangeDown).
  reflexivity.
Defined.

(** The user answers everything for an Active Directory profile and the
    controller cannot be initialised: the call ends with its failure. *)
Lemma exchange_failure_propagates_witness :
  result Example.constants (Example.credentials Example.allChoices)
         Example.exchangeDown (scriptedPrompter Example.activeDirectoryScript)
         tt None
  = Throws "init failed".
Proof.
  apply (proj1 (exchange_failure_propagates
                  Example.constants (Example.credentials Example.allChoices)
                  Example.exchangeDown
                  (scriptedPrompter Example.activeDirectoryScript) tt None
                  eq_refl eq_refl)).
  reflexivity.
Defined.
